(** * Bond price calculator: the pricing engine and the price/yield curve

    A shallow embedding of [bond_pricer.py] (the command-line calculator) and
    [bond_dashboard.py] (the Streamlit dashboard).  Both files carry their own
    copy of [calculate_bond_price]; the two copies are embedded separately, in
    [Module Pricer] and [Module Dashboard], and the dashboard's
    price-sensitivity data in [Module Dashboard] as well.

    Numbers.  Python floats are idealised as exact rationals ([Q], compared
    with [==]): rounding, overflow and underflow are not modelled.  Where float
    arithmetic leaves the rationals the model says so explicitly: Python
    raises [ZeroDivisionError], numpy yields an infinity or a NaN, written
    [NonFinite].

    Dates.  A [datetime.date] is represented by its proleptic Gregorian
    ordinal ([date.toordinal()]); comparison of dates is comparison of
    ordinals and [(d1 - d2).days] is their difference.

    Effects.  The engine reads the system clock ([date.today()]) and reports
    errors on the user's screen ([print], [st.error]); both are modelled by a
    state monad over a [World] holding the clock and the output emitted. *)

From Stdlib Require Import ZArith QArith Qround Qpower Lqa Lia List String Bool.
Import ListNotations.

Local Open Scope Z_scope.
Local Open Scope Q_scope.

(** ** Values, exceptions and the world *)

Definition date := Z.

Inductive value : Type :=
| NoneV                 (* Python's [None] *)
| Float (q : Q)         (* a finite float *)
| NonFinite.            (* an IEEE infinity or NaN *)

Inductive exn : Type :=
| ZeroDivisionError.

Inductive event : Type :=
| Printed (s : string)    (* [print(s)] *)
| StErrorShown (s : string).   (* [st.error(s)] *)

Record World : Type := mkWorld {
  clock : date;            (* what [date.today()] returns; one run is one day *)
  output : list event      (* what has been shown to the user, oldest first *)
}.

Inductive res (A : Type) : Type :=
| Val (a : A)
| Exn (e : exn).
Arguments Val {A} a.
Arguments Exn {A} e.

(** ** The effect monad *)

Module Eff.

Definition t (A : Type) : Type := World -> res A * World.

Definition ret {A} (a : A) : t A := fun w => (Val a, w).

Definition bind {A B} (m : t A) (k : A -> t B) : t B :=
  fun w => match m w with
           | (Val a, w') => k a w'
           | (Exn e, w') => (Exn e, w')
           end.

Definition emit (ev : event) : t unit :=
  fun w => (Val tt, mkWorld (clock w) (output w ++ [ev])).

Definition date_today : t date := fun w => (Val (clock w), w).

Definition lift {A} (r : res A) : t A := fun w => (r, w).

End Eff.

Notation "x <- m ;; k" := (Eff.bind m (fun x => k))
  (at level 61, m at next level, right associativity).
Notation "m ;;; k" := (Eff.bind m (fun _ => k))
  (at level 61, right associativity).

(** ** Arithmetic shared by the two copies *)

(** [365.25], the length of a year in days. *)
Definition days_per_year : Q := 36525 # 100.

(** [years_to_maturity = (maturity_date - today).days / 365.25] *)
Definition years_to_maturity (maturity_date today : date) : Q :=
  inject_Z (maturity_date - today) / days_per_year.

(** [num_periods = ceil(years_to_maturity * coupon_frequency_per_year)] *)
Definition num_periods (maturity_date today : date) (coupon_frequency_per_year : Z) : Z :=
  Qceiling (years_to_maturity maturity_date today * inject_Z coupon_frequency_per_year).

(** [periodic_coupon_payment = (face_value * coupon_rate) / coupon_frequency_per_year] *)
Definition periodic_coupon_payment (face_value coupon_rate : Q) (coupon_frequency_per_year : Z) : Q :=
  (face_value * coupon_rate) / inject_Z coupon_frequency_per_year.

(** [periodic_ytm = ytm / coupon_frequency_per_year] *)
Definition periodic_ytm (ytm : Q) (coupon_frequency_per_year : Z) : Q :=
  ytm / inject_Z coupon_frequency_per_year.

(** Python's float operators that can fail. [x ** n] with an integer [n]
    raises on a zero base and a negative exponent; [x / y] raises on a zero
    divisor. *)
Definition float_pow (x : Q) (n : Z) : res Q :=
  if Qeq_bool x 0 && (n <? 0)%Z then Exn ZeroDivisionError else Val (x ^ n).

Definition float_div (x y : Q) : res Q :=
  if Qeq_bool y 0 then Exn ZeroDivisionError else Val (x / y).

(** numpy's float64 operators: the same divisions yield an infinity or a NaN
    (and a RuntimeWarning, left out here) instead of raising; a non-finite
    operand stays non-finite through [+], [-], [*] and a division by a finite
    number.  The source never divides by a non-finite number (its divisors
    are [periodic_ytm] and a power with a positive exponent), so that case is
    not told apart here. *)
Module Np.

Inductive float64 : Type :=
| Fin (q : Q)
| Inf_or_NaN.

Definition lift2 (f : Q -> Q -> Q) (a b : float64) : float64 :=
  match a, b with
  | Fin x, Fin y => Fin (f x y)
  | _, _ => Inf_or_NaN
  end.

Definition add := lift2 Qplus.
Definition sub := lift2 Qminus.
Definition mul := lift2 Qmult.

Definition div (a b : float64) : float64 :=
  match a, b with
  | Fin x, Fin y => if Qeq_bool y 0 then Inf_or_NaN else Fin (x / y)
  | _, _ => Inf_or_NaN
  end.

Definition pow (x : Q) (n : Z) : float64 :=
  if Qeq_bool x 0 && (n <? 0)%Z then Inf_or_NaN else Fin (x ^ n).

Definition to_value (a : float64) : value :=
  match a with
  | Fin q => Float q
  | Inf_or_NaN => NonFinite
  end.

End Np.

(** ** [bond_pricer.py] *)

Module Pricer.

Definition msg_date_format : string :=
  "Error: Invalid maturity date format. Please use YYYY-MM-DD (e.g., 2030-12-31).".
Definition msg_past_maturity : string :=
  "Error: Maturity date cannot be in the past. Please enter a future date.".
Definition msg_frequency : string :=
  "Error: Coupon frequency must be a positive integer (e.g., 1, 2, 4).".

Section WithParser.

(** [datetime.strptime(s, '%Y-%m-%d').date()], a function of the Python
    library; [None] stands for its [ValueError].  The last parameter of
    [calculate_bond_price] has the default value 2 in the source; here the
    caller always passes it, as [main] does. *)
Variable strptime : string -> option date.

Definition calculate_bond_price
    (face_value coupon_rate : Q) (maturity_date_str : string) (ytm : Q)
    (coupon_frequency_per_year : Z) : Eff.t value :=
  match strptime maturity_date_str with
  | None =>
      Eff.emit (Printed msg_date_format) ;;;
      Eff.ret NoneV
  | Some maturity_date =>
      today <- Eff.date_today ;;
      if (maturity_date <? today)%Z then
        Eff.emit (Printed msg_past_maturity) ;;;
        Eff.ret NoneV
      else if (coupon_frequency_per_year <=? 0)%Z then
        Eff.emit (Printed msg_frequency) ;;;
        Eff.ret NoneV
      else
        let n := num_periods maturity_date today coupon_frequency_per_year in
        if (n <=? 0)%Z then Eff.ret (Float face_value)
        else
          let c := periodic_coupon_payment face_value coupon_rate coupon_frequency_per_year in
          let r := periodic_ytm ytm coupon_frequency_per_year in
          pv_coupons <-
            (if Qeq_bool r 0 then Eff.ret (c * inject_Z n)
             else
               d <- Eff.lift (float_pow (1 + r) (- n)) ;;
               a <- Eff.lift (float_div (1 - d) r) ;;
               Eff.ret (c * a)) ;;
          g <- Eff.lift (float_pow (1 + r) n) ;;
          pv_face_value <- Eff.lift (float_div face_value g) ;;
          Eff.ret (Float (pv_coupons + pv_face_value))
  end.

End WithParser.

End Pricer.

(** ** [bond_dashboard.py] *)

Module Dashboard.

Definition msg_past_maturity : string :=
  "Error: Maturity date cannot be in the past. Please select a future date.".
Definition msg_frequency : string :=
  "Error: Coupon frequency must be a positive integer.".

Definition calculate_bond_price
    (face_value coupon_rate : Q) (maturity_date : date) (ytm : Q)
    (coupon_frequency_per_year : Z) : Eff.t value :=
  today <- Eff.date_today ;;
  if (maturity_date <? today)%Z then
    Eff.emit (StErrorShown msg_past_maturity) ;;;
    Eff.ret NoneV
  else if (coupon_frequency_per_year <=? 0)%Z then
    Eff.emit (StErrorShown msg_frequency) ;;;
    Eff.ret NoneV
  else
    let n := num_periods maturity_date today coupon_frequency_per_year in
    if (n <=? 0)%Z then Eff.ret (Float face_value)
    else
      let c := periodic_coupon_payment face_value coupon_rate coupon_frequency_per_year in
      let r := periodic_ytm ytm coupon_frequency_per_year in
      let pv_coupons :=
        if Qeq_bool r 0 then Np.Fin (c * inject_Z n)
        else Np.mul (Np.Fin c)
                    (Np.div (Np.sub (Np.Fin 1) (Np.pow (1 + r) (- n))) (Np.Fin r)) in
      let pv_face_value := Np.div (Np.Fin face_value) (Np.pow (1 + r) n) in
      Eff.ret (Np.to_value (Np.add pv_coupons pv_face_value)).

(** *** The price-sensitivity data of [main] *)

(** Python's [max(a, b)]: [b] when [b > a], else [a]. *)
Definition py_max (a b : Q) : Q := if Qlt_le_dec a b then b else a.

(** [np.linspace(start, stop, num)]: [i * step + start] for [i < num], with
    [step = (stop - start) / (num - 1)]; numpy then stores [stop] itself in
    the last place, the same number in exact arithmetic. *)
Definition linspace (start stop : Q) (num : nat) : list Q :=
  let step := (stop - start) / inject_Z (Z.of_nat (num - 1)) in
  map (fun i => inject_Z (Z.of_nat i) * step + start) (seq 0 num).

(** [np.rint]: the nearest integer, a tie going to the even one. *)
Definition rint (x : Q) : Z :=
  let f := Qfloor x in
  match Qcompare (x - inject_Z f) (1 # 2) with
  | Lt => f
  | Gt => (f + 1)%Z
  | Eq => if Z.even f then f else (f + 1)%Z
  end.

(** [np.round(x, decimals)] is [rint(x * 10**decimals) / 10**decimals]. *)
Definition np_round (x : Q) (decimals : Z) : Q :=
  inject_Z (rint (x * 10 ^ decimals)) / 10 ^ decimals.

Definition np_nan : value := NonFinite.

(** [ytm_range], in percent, after the rounding of line 182. *)
Definition ytm_range (ytm_percent : Q) : list Q :=
  map (fun y => np_round y 1)
      (linspace (py_max 0 (ytm_percent - 5)) (ytm_percent + 5) 50).

(** The loop [for y in ytm_range], with [prices] the list built so far. *)
Fixpoint prices_loop (face_value coupon_rate : Q) (maturity_date : date)
    (coupon_frequency : Z) (ys : list Q) (prices : list value) : Eff.t (list value) :=
  match ys with
  | [] => Eff.ret prices
  | y :: ys' =>
      price <- calculate_bond_price face_value coupon_rate maturity_date
                 (y / 100) coupon_frequency ;;
      prices_loop face_value coupon_rate maturity_date coupon_frequency ys'
        (prices ++ [match price with NoneV => np_nan | _ => price end])
  end.


End Dashboard.

(** ** Derived definitions used in the statements *)

(** The price of the general branch, with the operations in the order of the
    source: [pv_coupons + pv_face_value]. *)
Definition discounted_price (face_value c r : Q) (n : Z) : Q :=
  c * ((1 - (1 + r) ^ (- n)) / r) + face_value / (1 + r) ^ n.

(** The price of the [periodic_ytm == 0] branch. *)
Definition undiscounted_price (face_value c r : Q) (n : Z) : Q :=
  c * inject_Z n + face_value / (1 + r) ^ n.

(** The price the engine computes from validated inputs, as one expression:
    the three branches of the source. *)
Definition price_of (face_value coupon_rate : Q) (maturity_date today : date) (ytm : Q)
    (coupon_frequency_per_year : Z) : Q :=
  let n := num_periods maturity_date today coupon_frequency_per_year in
  let c := periodic_coupon_payment face_value coupon_rate coupon_frequency_per_year in
  let r := periodic_ytm ytm coupon_frequency_per_year in
  if (n <=? 0)%Z then face_value
  else if Qeq_bool r 0 then undiscounted_price face_value c r n
  else discounted_price face_value c r n.

(** Two runs of the engine whose prices are in the ratio [k]: the same world
    afterwards and either two prices, the second [k] times the first, or the
    same failure of the arithmetic. *)
Definition scaled (k : Q) (a b : res value * World) : Prop :=
  snd a = snd b
  /\ match fst a, fst b with
     | Val (Float p), Val (Float p') => p' == k * p
     | Val NonFinite, Val NonFinite => True
     | Exn e, Exn e' => e = e'
     | _, _ => False
     end.



(** The world on the same day with nothing shown yet. *)
Definition fresh (w : World) : World := mkWorld (clock w) [].




(** ** Calendar dates for the examples

    A reader of the canonical ten-character form [YYYY-MM-DD], with the
    ordinal computed as Python's [datetime] does ([_ymd2ord]).  It stands for
    [strptime] where an example needs a concrete parser. *)

Module Calendar.

Local Open Scope Z_scope.

Definition is_leap (year : Z) : bool :=
  (year mod 4 =? 0) && (negb (year mod 100 =? 0) || (year mod 400 =? 0)).

Definition days_before_year (year : Z) : Z :=
  let y := year - 1 in y * 365 + y / 4 - y / 100 + y / 400.

Definition days_in_month (year month : Z) : Z :=
  if (month =? 2) && is_leap year then 29
  else nth (Z.to_nat month) [0; 31; 28; 31; 30; 31; 30; 31; 31; 30; 31; 30; 31] 0.

Definition days_before_month (year month : Z) : Z :=
  nth (Z.to_nat month) [0; 0; 31; 59; 90; 120; 151; 181; 212; 243; 273; 304; 334] 0
  + (if (2 <? month) && is_leap year then 1 else 0).

Definition ymd2ord (year month day : Z) : option date :=
  if (1 <=? year) && (year <=? 9999) && (1 <=? month) && (month <=? 12)
     && (1 <=? day) && (day <=? days_in_month year month)
  then Some (days_before_year year + days_before_month year month + day)
  else None.

Definition digit (a : Ascii.ascii) : option Z :=
  let k := Z.of_nat (Ascii.nat_of_ascii a) in
  if (48 <=? k) && (k <=? 57) then Some (k - 48) else None.

Definition is_dash (a : Ascii.ascii) : bool :=
  Nat.eqb (Ascii.nat_of_ascii a) 45.

Fixpoint number (ds : list Ascii.ascii) (acc : Z) : option Z :=
  match ds with
  | [] => Some acc
  | a :: ds' => match digit a with
                | Some k => number ds' (10 * acc + k)
                | None => None
                end
  end.

Definition strptime (s : string) : option date :=
  match list_ascii_of_string s with
  | [y1; y2; y3; y4; s1; m1; m2; s2; d1; d2] =>
      if is_dash s1 && is_dash s2 then
        match number [y1; y2; y3; y4] 0, number [m1; m2] 0, number [d1; d2] 0 with
        | Some y, Some m, Some d => ymd2ord y m d
        | _, _, _ => None
        end
      else None
  | _ => None
  end.

End Calendar.

(** ** [main] of [bond_dashboard.py]

    The Streamlit script: every [st.] call is recorded, in order, on the page;
    the values the widgets return are the user's, taken as arguments (Streamlit
    keeps them within the widgets' bounds).  Keyword arguments that only style
    a call ([format], [help], [use_container_width], the figure's titles) are
    left out. *)

Module DashboardApp.

(** The float an [NonFinite] price stands for.  At a periodic yield of [-1]
    the engine adds [c * inf] and [face_value / 0.0]: the sum is an infinity
    when the coupon and the face value have the same sign and a NaN
    otherwise, whatever the sampled yield. *)
Inductive nonfinite_float : Type := PosInf | NegInf | NaN.

Definition nonfinite_price (face_value c : Q) : nonfinite_float :=
  match Qcompare c 0, Qcompare face_value 0 with
  | Gt, Gt => PosInf
  | Lt, Lt => NegInf
  | _, _ => NaN
  end.

(** [price > x], [price < x] and [pandas.isna(price)] for a price the engine
    returned. *)
Definition float_gt (nf : nonfinite_float) (price : value) (x : Q) : bool :=
  match price with
  | Float p => negb (Qle_bool p x)
  | NonFinite => match nf with PosInf => true | _ => false end
  | NoneV => false
  end.

Definition float_lt (nf : nonfinite_float) (price : value) (x : Q) : bool :=
  match price with
  | Float p => negb (Qle_bool x p)
  | NonFinite => match nf with NegInf => true | _ => false end
  | NoneV => false
  end.

Definition isna (nf : nonfinite_float) (price : value) : bool :=
  match price with
  | Float _ => false
  | NonFinite => match nf with NaN => true | _ => false end
  | NoneV => true
  end.

(** [DataFrame.dropna()]: the rows without a missing price (the yields of
    the other column are finite numbers). *)
Definition dropna (nf : nonfinite_float) (rows : list (Q * value)) : list (Q * value) :=
  filter (fun row => negb (isna nf (snd row))) rows.

Inductive st_call : Type :=
| EngineCall (e : event)    (* what the engine itself showed *)
| SetPageConfig (layout page_title page_icon : string)
| Title (body : string)
| Markdown (body : string)
| SidebarHeader (body : string)
| NumberInput (label : string) (min_value : Q) (max_value : option Q) (default step : Q)
| DateInput (label : string) (default min_value : date)
| Selectbox (label : string) (options : list string) (index : nat)
| Header (body : string)
| Subheader (body : string)
| Success (body : string)
| Info (body : string)
| Warning (body : string)
| Caption (body : string)
| PlotlyChart (rows : list (Q * value)) (marker_x : Q) (marker_y : value).

Record Page : Type := mkPage {
  today : date;              (* what [date.today()] returns *)
  calls : list st_call       (* the calls made so far, oldest first *)
}.

Inductive failure : Type :=
| KeyError (key : string)
| EngineRaised (e : exn).

Inductive outcome (A : Type) : Type :=
| Done (a : A)
| Raised (e : failure).
Arguments Done {A} a.
Arguments Raised {A} e.

Definition t (A : Type) : Type := Page -> outcome A * Page.

Definition ret {A} (a : A) : t A := fun p => (Done a, p).

Definition bind {A B} (m : t A) (k : A -> t B) : t B :=
  fun p => match m p with
           | (Done a, p') => k a p'
           | (Raised e, p') => (Raised e, p')
           end.

Definition raise {A} (e : failure) : t A := fun p => (Raised e, p).

Definition call (c : st_call) : t unit :=
  fun p => (Done tt, mkPage (today p) (calls p ++ [c])).

Definition date_today : t date := fun p => (Done (today p), p).

(** A run of the engine's code on the page: the same clock, its messages
    added to the page. *)
Definition engine {A} (m : Eff.t A) : t A :=
  fun p =>
    let (r, w) := m (mkWorld (today p) []) in
    let p' := mkPage (today p) (calls p ++ map EngineCall (output w)) in
    match r with
    | Val a => (Done a, p')
    | Exn e => (Raised (EngineRaised e), p')
    end.

Notation "x <~ m ;; k" := (bind m (fun x => k))
  (at level 61, m at next level, right associativity).
Notation "m ~;; k" := (bind m (fun _ => k))
  (at level 61, right associativity).

(** The values of the five widgets. *)
Record Widgets : Type := mkWidgets {
  face_value_input : Q;
  coupon_rate_percent_input : Q;
  maturity_date_input : date;
  ytm_percent_input : Q;
  frequency_label_input : string
}.

Definition number_input (label : string) (min_value : Q) (max_value : option Q)
    (default step : Q) (user : Q) : t Q :=
  call (NumberInput label min_value max_value default step) ~;; ret user.

Definition date_input (label : string) (default min_value : date) (user : date) : t date :=
  call (DateInput label default min_value) ~;; ret user.

Definition selectbox (label : string) (options : list string) (index : nat)
    (user : string) : t string :=
  call (Selectbox label options index) ~;; ret user.

Definition coupon_frequency_options : list (string * Z) :=
  [("Annual (1x)"%string, 1%Z); ("Semi-Annual (2x)"%string, 2%Z);
   ("Quarterly (4x)"%string, 4%Z); ("Monthly (12x)"%string, 12%Z)].

(** [d[key]] on a dict: the value, or [KeyError]. *)
Definition getitem (d : list (string * Z)) (key : string) : t Z :=
  match find (fun kv => String.eqb (fst kv) key) d with
  | Some kv => ret (snd kv)
  | None => raise (KeyError key)
  end.

Definition nl : string := String (Ascii.ascii_of_nat 10) EmptyString.

Definition intro_text : string :=
  (nl ++ "    This tool allows you to calculate the theoretical price of a bond based on its characteristics."
   ++ nl ++ "    Adjust the inputs on the left to see how the bond price changes."
   ++ nl ++ "    ")%string.

Definition premium_text : string := "This is a **Premium Bond** (Price > Face Value)".
Definition discount_text : string := "This is a **Discount Bond** (Price < Face Value)".
Definition par_text : string := "This is a **Par Bond** (Price = Face Value)".
Definition no_chart_text : string :=
  "Could not generate YTM sensitivity chart due to invalid inputs across the range.".

(** [date(2030, 12, 31)], the default of the maturity widget. *)
Definition default_maturity : date := 741442%Z.

Section WithFormat.

(** [f"{bond_price:,.2f}"], a formatting of the Python library. *)
Variable format_price : value -> string.

Definition main (user : Widgets) : t unit :=
  call (SetPageConfig "centered" "Interactive Bond Price Calculator" "💰") ~;;
  call (Title "💰 Interactive Bond Price Calculator") ~;;
  call (Markdown intro_text) ~;;
  call (Markdown "---") ~;;
  call (SidebarHeader "Bond Parameters") ~;;
  face_value <~ number_input "Face Value ($)" 1 None 1000 100 (face_value_input user) ;;
  coupon_rate_percent <~ number_input "Annual Coupon Rate (%)" 0 (Some 100) 5 (1 # 10)
                           (coupon_rate_percent_input user) ;;
  let coupon_rate := coupon_rate_percent / 100 in
  min_date <~ date_today ;;
  maturity_date <~ date_input "Maturity Date" default_maturity min_date
                     (maturity_date_input user) ;;
  ytm_percent <~ number_input "Annual Yield to Maturity (YTM) (%)" 0 (Some 100) 4 (1 # 10)
                   (ytm_percent_input user) ;;
  let ytm := ytm_percent / 100 in
  selected_frequency_label <~ selectbox "Coupon Frequency per Year"
                                (map fst coupon_frequency_options) 1
                                (frequency_label_input user) ;;
  coupon_frequency <~ getitem coupon_frequency_options selected_frequency_label ;;
  call (Header "Bond Price Calculation") ~;;
  bond_price <~ engine (Dashboard.calculate_bond_price face_value coupon_rate
                          maturity_date ytm coupon_frequency) ;;
  match bond_price with
  | NoneV => ret tt
  | _ =>
      let nf := nonfinite_price face_value
                  (periodic_coupon_payment face_value coupon_rate coupon_frequency) in
      call (Success ("**Calculated Bond Price:** **$" ++ format_price bond_price ++ "**")%string) ~;;
      (if float_gt nf bond_price face_value then call (Info premium_text)
       else if float_lt nf bond_price face_value then call (Warning discount_text)
       else call (Info par_text)) ~;;
      call (Markdown "---") ~;;
      call (Subheader "Bond Price Sensitivity to YTM") ~;;
      call (Markdown "Observe how the bond price changes across different Yields to Maturity, holding other factors constant.") ~;;
      let ytm_range := Dashboard.ytm_range ytm_percent in
      prices_for_ytm_range <~ engine (Dashboard.prices_loop face_value coupon_rate
                                        maturity_date coupon_frequency ytm_range []) ;;
      let df_price_sensitivity := dropna nf (combine ytm_range prices_for_ytm_range) in
      match df_price_sensitivity with
      | [] => call (Warning no_chart_text)
      | _ => call (PlotlyChart df_price_sensitivity ytm_percent bond_price)
      end
  end ~;;
  call (Markdown "---") ~;;
  call (Caption "Developed by [Your Name/GitHub Profile] for educational purposes.").

End WithFormat.


End DashboardApp.

(** ** [main] of [bond_pricer.py]

    The command-line loop.  The console holds the clock, the lines still to
    be read from standard input and what has been written; [input] at the end
    of the input raises [EOFError].  The loop ends when the user answers
    anything but yes, or when the input runs out; it is defined by recursion
    on a number of rounds allowed, which the length of the input bounds. *)

Module Cli.

Inductive written : Type :=
| Line (s : string)        (* [print(s)] *)
| Prompt (s : string).     (* the prompt of [input(s)] *)

Record Console : Type := mkConsole {
  now : date;
  stdin : list string;
  stdout : list written
}.

Inductive py_exn : Type :=
| ValueError
| EOFError
| EngineError (e : exn).

Inductive result (A : Type) : Type :=
| Ok (a : A)
| Raise (e : py_exn)
| OutOfFuel.
Arguments Ok {A} a.
Arguments Raise {A} e.
Arguments OutOfFuel {A}.

Definition t (A : Type) : Type := Console -> result A * Console.

Definition ret {A} (a : A) : t A := fun c => (Ok a, c).

Definition bind {A B} (m : t A) (k : A -> t B) : t B :=
  fun c => match m c with
           | (Ok a, c') => k a c'
           | (Raise e, c') => (Raise e, c')
           | (OutOfFuel, c') => (OutOfFuel, c')
           end.

Definition raise {A} (e : py_exn) : t A := fun c => (Raise e, c).

Definition out_of_fuel {A} : t A := fun c => (OutOfFuel, c).

Definition write (x : written) : t unit :=
  fun c => (Ok tt, mkConsole (now c) (stdin c) (stdout c ++ [x])).

Definition print (s : string) : t unit := write (Line s).

(** [input(prompt)]: the prompt is written, then a line is read. *)
Definition input (prompt : string) : t string :=
  fun c =>
    let c' := mkConsole (now c) (stdin c) (stdout c ++ [Prompt prompt]) in
    match stdin c with
    | [] => (Raise EOFError, c')
    | line :: rest => (Ok line, mkConsole (now c) rest (stdout c'))
    end.

(** [try: m  except ...: handler]. *)
Definition try_except {A} (m : t A) (handler : py_exn -> t A) : t A :=
  fun c => match m c with
           | (Raise e, c') => handler e c'
           | other => other
           end.

(** The engine prints with [print]. *)
Definition written_of_event (e : event) : written :=
  match e with
  | Printed s => Line s
  | StErrorShown s => Line s
  end.

Definition engine {A} (m : Eff.t A) : t A :=
  fun c =>
    let (r, w) := m (mkWorld (now c) []) in
    let c' := mkConsole (now c) (stdin c) (stdout c ++ map written_of_event (output w)) in
    match r with
    | Val a => (Ok a, c')
    | Exn e => (Raise (EngineError e), c')
    end.

Notation "x <~ m ;; k" := (bind m (fun x => k))
  (at level 61, m at next level, right associativity).
Notation "m ~;; k" := (bind m (fun _ => k))
  (at level 61, right associativity).

Definition nl : string := String (Ascii.ascii_of_nat 10) EmptyString.

(** Python's [s * n]. *)
Fixpoint times (s : string) (n : nat) : string :=
  match n with
  | O => EmptyString
  | S k => (s ++ times s k)%string
  end.

Definition price_line (shown : string) : string :=
  ("      Calculated Bond Price: $" ++ shown)%string.

(** How a round of the loop ends: with [continue], or by reaching the
    question after the [try] statement. *)
Inductive flow : Type := Continue | AskAgain.

Section WithLibrary.

(** Functions of the Python library: [strptime] as before; [float(s)] and
    [int(s)], [None] standing for [ValueError] (the strings [float] reads as
    an infinity or a NaN are outside this model); [s.lower()];
    [f"{x:,.2f}"]; and [str(e)] of an exception. *)
Variable strptime : string -> option date.
Variable float_of_string : string -> option Q.
Variable int_of_string : string -> option Z.
Variable lower : string -> string.
Variable format_price : value -> string.
Variable str_of_exn : py_exn -> string.

Definition to_float (s : string) : t Q :=
  match float_of_string s with
  | Some x => ret x
  | None => raise ValueError
  end.

Definition to_int (s : string) : t Z :=
  match int_of_string s with
  | Some n => ret n
  | None => raise ValueError
  end.

(** [not (0 <= x <= 1)] *)
Definition outside_unit (x : Q) : bool := negb (Qle_bool 0 x && Qle_bool x 1).

(** The body of the [try] statement. *)
Definition attempt : t flow :=
  s1 <~ input "Enter Face Value (e.g., 1000): $" ;;
  face_value <~ to_float s1 ;;
  if Qle_bool face_value 0 then
    print "Error: Face Value must be positive. Please try again." ~;;
    ret Continue
  else
    s2 <~ input "Enter Annual Coupon Rate (e.g., 5 for 5%): " ;;
    coupon_rate_percent <~ to_float s2 ;;
    let coupon_rate := coupon_rate_percent / 100 in
    (if outside_unit coupon_rate then
       print "Warning: Coupon Rate usually between 0% and 100%. Please enter as a number (e.g., 5 for 5%)."
     else ret tt) ~;;
    maturity_date_str <~ input "Enter Maturity Date (YYYY-MM-DD, e.g., 2030-12-31): " ;;
    s4 <~ input "Enter Annual Yield to Maturity (e.g., 4 for 4%): " ;;
    ytm_percent <~ to_float s4 ;;
    let ytm := ytm_percent / 100 in
    (if outside_unit ytm then
       print "Warning: Yield to Maturity usually between 0% and 100%. Please enter as a number (e.g., 4 for 4%)."
     else ret tt) ~;;
    s5 <~ input "Enter Coupon Frequency per Year (e.g., 2 for semi-annual, 1 for annual, 4 for quarterly): " ;;
    coupon_frequency <~ to_int s5 ;;
    if (coupon_frequency <=? 0)%Z then
      print "Error: Coupon frequency must be a positive integer. Please try again." ~;;
      ret Continue
    else
      bond_price <~ engine (Pricer.calculate_bond_price strptime face_value coupon_rate
                              maturity_date_str ytm coupon_frequency) ;;
      (match bond_price with
       | NoneV => ret tt
       | _ =>
           print (nl ++ times "=" 40)%string ~;;
           print (price_line (format_price bond_price)) ~;;
           print (times "=" 40)
       end) ~;;
      ret AskAgain.

(** The [try] statement with its two handlers. *)
Definition round : t flow :=
  try_except attempt
    (fun e =>
       match e with
       | ValueError =>
           print (nl ++ "Invalid input detected. Please ensure you enter numbers for rates/values and correct date format.")%string ~;;
           ret AskAgain
       | _ =>
           print (nl ++ "An unexpected error occurred: " ++ str_of_exn e
                  ++ ". Please report this issue.")%string ~;;
           ret AskAgain
       end).

(** [while True], for at most [fuel] rounds. *)
Fixpoint loop (fuel : nat) : t unit :=
  match fuel with
  | O => out_of_fuel
  | S k =>
      how <~ round ;;
      match how with
      | Continue => loop k
      | AskAgain =>
          answer <~ input (nl ++ "Do you want to calculate another bond price? (yes/no): ")%string ;;
          let another_calculation := lower answer in
          if negb (String.eqb another_calculation "yes") then
            print (nl ++ times "-" 60)%string ~;;
            print "Thank you for using the Bond Price Calculator. Goodbye!" ~;;
            print (times "-" 60)
          else loop k
      end
  end.

Definition main (fuel : nat) : t unit :=
  print (nl ++ times "=" 40)%string ~;;
  print "      Simple Bond Price Calculator" ~;;
  print (times "=" 40 ++ nl)%string ~;;
  print "This tool helps you calculate the theoretical price of a bond." ~;;
  print "Enter the requested details below. To exit, type 'no' when prompted." ~;;
  print (times "-" 60 ++ nl)%string ~;;
  loop fuel.

(** A price shown by the loop: the formatted result of a call of the engine
    on a face value and a frequency that are positive, with the rates the
    user typed as percentages, all read from lines of the input. *)
Definition shown_price (c : Console) (shown : string) : Prop :=
  exists (l1 l2 l3 l4 l5 : string) (face_value coupon_percent ytm_percent : Q)
         (frequency : Z) (v : value),
    In l1 (stdin c) /\ In l2 (stdin c) /\ In l3 (stdin c) /\ In l4 (stdin c)
    /\ In l5 (stdin c)
    /\ float_of_string l1 = Some face_value
    /\ float_of_string l2 = Some coupon_percent
    /\ float_of_string l4 = Some ytm_percent
    /\ int_of_string l5 = Some frequency
    /\ 0 < face_value /\ (0 < frequency)%Z
    /\ fst (Pricer.calculate_bond_price strptime face_value (coupon_percent / 100) l3
              (ytm_percent / 100) frequency (mkWorld (now c) [])) = Val v
    /\ v <> NoneV
    /\ shown = format_price v.

End WithLibrary.

End Cli.

(** ** Stand-ins for the Python library in the examples of the loop

    [float] and [int] on unsigned decimal numerals, [lower] on ASCII letters,
    a fixed text for the formatted price and Python's texts of the two
    exceptions. *)

Module Sample.

Definition numeral (s : string) : option Z :=
  match s with
  | EmptyString => None
  | _ => Calendar.number (list_ascii_of_string s) 0
  end.

Definition float_of_string (s : string) : option Q := option_map inject_Z (numeral s).

Definition int_of_string (s : string) : option Z := numeral s.

Definition lower_char (a : Ascii.ascii) : Ascii.ascii :=
  let n := Ascii.nat_of_ascii a in
  if Nat.leb 65 n && Nat.leb n 90 then Ascii.ascii_of_nat (n + 32) else a.

Fixpoint lower (s : string) : string :=
  match s with
  | EmptyString => EmptyString
  | String a rest => String (lower_char a) (lower rest)
  end.

Definition format_price (v : value) : string := "1,081.76".

Definition str_of_exn (e : Cli.py_exn) : string :=
  match e with
  | Cli.EOFError => "EOF when reading a line"
  | Cli.EngineError _ => "0.0 cannot be raised to a negative power"
  | Cli.ValueError => "could not convert string to float"
  end.

End Sample.

(** The three lines the loop prints before it ends. *)
Definition cli_farewell : list Cli.written :=
  [Cli.Line (Cli.nl ++ Cli.times "-" 60)%string;
   Cli.Line "Thank you for using the Bond Price Calculator. Goodbye!";
   Cli.Line (Cli.times "-" 60)].

(** * The branches of the engine *)

Lemma Qeq_bool_false (x y : Q) : ~ x == y -> Qeq_bool x y = false.
Proof.
  intro H. destruct (Qeq_bool x y) eqn:E; [|reflexivity].
  apply Qeq_bool_iff in E. contradiction.
Qed.

Lemma Qeq_bool_true (x y : Q) : x == y -> Qeq_bool x y = true.
Proof. intro H. now apply Qeq_bool_iff. Qed.

Lemma float_pow_nonzero (x : Q) (n : Z) : ~ x == 0 -> float_pow x n = Val (x ^ n).
Proof. intro H. unfold float_pow. now rewrite (Qeq_bool_false _ _ H). Qed.

Lemma float_pow_zero_neg (x : Q) (n : Z) :
  x == 0 -> (n < 0)%Z -> float_pow x n = Exn ZeroDivisionError.
Proof.
  intros Hx Hn. unfold float_pow.
  rewrite (Qeq_bool_true _ _ Hx). apply Z.ltb_lt in Hn. now rewrite Hn.
Qed.

Lemma float_div_nonzero (x y : Q) : ~ y == 0 -> float_div x y = Val (x / y).
Proof. intro H. unfold float_div. now rewrite (Qeq_bool_false _ _ H). Qed.

Lemma np_pow_nonzero (x : Q) (n : Z) : ~ x == 0 -> Np.pow x n = Np.Fin (x ^ n).
Proof. intro H. unfold Np.pow. now rewrite (Qeq_bool_false _ _ H). Qed.

Lemma np_pow_zero_neg (x : Q) (n : Z) :
  x == 0 -> (n < 0)%Z -> Np.pow x n = Np.Inf_or_NaN.
Proof.
  intros Hx Hn. unfold Np.pow.
  rewrite (Qeq_bool_true _ _ Hx). apply Z.ltb_lt in Hn. now rewrite Hn.
Qed.

Lemma np_div_nonzero (x y : Q) : ~ y == 0 -> Np.div (Np.Fin x) (Np.Fin y) = Np.Fin (x / y).
Proof. intro H. unfold Np.div. now rewrite (Qeq_bool_false _ _ H). Qed.

Ltac run_eff :=
  unfold Eff.bind, Eff.ret, Eff.emit, Eff.date_today, Eff.lift; cbn beta iota.

Ltac decide_tests :=
  repeat match goal with
  | H : (?a < ?b)%Z |- context [(?a <? ?b)%Z] =>
      rewrite (proj2 (Z.ltb_lt a b) H)
  | H : (?b <= ?a)%Z |- context [(?a <? ?b)%Z] =>
      rewrite (proj2 (Z.ltb_ge a b) H)
  | H : (?a <= ?b)%Z |- context [(?a <=? ?b)%Z] =>
      rewrite (proj2 (Z.leb_le a b) H)
  | H : (?b < ?a)%Z |- context [(?a <=? ?b)%Z] =>
      rewrite (proj2 (Z.leb_gt a b) H)
  | H : ~ ?x == ?y |- context [Qeq_bool ?x ?y] =>
      rewrite (Qeq_bool_false x y H)
  | H : ?x == ?y |- context [Qeq_bool ?x ?y] =>
      rewrite (Qeq_bool_true x y H)
  end.

Section DashboardBranches.

Variables (face_value coupon_rate : Q) (maturity_date : date) (ytm : Q)
          (coupon_frequency_per_year : Z) (w : World).

Let run := Dashboard.calculate_bond_price face_value coupon_rate maturity_date ytm
             coupon_frequency_per_year w.
Let n := num_periods maturity_date (clock w) coupon_frequency_per_year.
Let c := periodic_coupon_payment face_value coupon_rate coupon_frequency_per_year.
Let r := periodic_ytm ytm coupon_frequency_per_year.

Lemma dashboard_past_maturity :
  (maturity_date < clock w)%Z ->
  run = (Val NoneV,
         mkWorld (clock w) (output w ++ [StErrorShown Dashboard.msg_past_maturity])).
Proof.
  intro H. subst run. unfold Dashboard.calculate_bond_price. run_eff.
  decide_tests. reflexivity.
Qed.

Lemma dashboard_bad_frequency :
  (clock w <= maturity_date)%Z -> (coupon_frequency_per_year <= 0)%Z ->
  run = (Val NoneV,
         mkWorld (clock w) (output w ++ [StErrorShown Dashboard.msg_frequency])).
Proof.
  intros H1 H2. subst run. unfold Dashboard.calculate_bond_price. run_eff.
  decide_tests. reflexivity.
Qed.

Hypothesis date_ok : (clock w <= maturity_date)%Z.
Hypothesis frequency_ok : (0 < coupon_frequency_per_year)%Z.

Lemma dashboard_at_maturity :
  (n <= 0)%Z -> run = (Val (Float face_value), w).
Proof.
  intro H. subst run n. unfold Dashboard.calculate_bond_price. run_eff.
  decide_tests. reflexivity.
Qed.

Lemma dashboard_zero_yield :
  (0 < n)%Z -> r == 0 ->
  run = (Val (Float (undiscounted_price face_value c r n)), w).
Proof.
  intros Hn Hr. subst run n r c. unfold Dashboard.calculate_bond_price. run_eff.
  decide_tests.
  rewrite np_pow_nonzero by (rewrite Hr; discriminate).
  rewrite np_div_nonzero
    by (apply Qpower_not_0; rewrite Hr; discriminate).
  reflexivity.
Qed.

Lemma dashboard_discounted :
  (0 < n)%Z -> ~ r == 0 -> ~ 1 + r == 0 ->
  run = (Val (Float (discounted_price face_value c r n)), w).
Proof.
  intros Hn Hr Hb. subst run n r c. unfold Dashboard.calculate_bond_price. run_eff.
  decide_tests.
  rewrite !np_pow_nonzero by exact Hb.
  cbn [Np.sub Np.lift2].
  rewrite np_div_nonzero by exact Hr.
  rewrite np_div_nonzero by (apply Qpower_not_0; exact Hb).
  reflexivity.
Qed.

Lemma dashboard_zero_base :
  (0 < n)%Z -> 1 + r == 0 -> run = (Val NonFinite, w).
Proof.
  intros Hn Hb. subst run n r c. unfold Dashboard.calculate_bond_price. run_eff.
  decide_tests.
  assert (Hr : ~ periodic_ytm ytm coupon_frequency_per_year == 0)
    by (intro E; rewrite E in Hb; discriminate Hb).
  decide_tests.
  rewrite np_pow_zero_neg by (trivial; lia).
  reflexivity.
Qed.

End DashboardBranches.

Section PricerBranches.

Variable strptime : string -> option date.
Variables (face_value coupon_rate : Q) (maturity_date_str : string) (ytm : Q)
          (coupon_frequency_per_year : Z) (w : World).

Let run := Pricer.calculate_bond_price strptime face_value coupon_rate
             maturity_date_str ytm coupon_frequency_per_year w.

Lemma pricer_bad_date :
  strptime maturity_date_str = None ->
  run = (Val NoneV,
         mkWorld (clock w) (output w ++ [Printed Pricer.msg_date_format])).
Proof.
  intro H. subst run. unfold Pricer.calculate_bond_price. rewrite H. reflexivity.
Qed.

Variable maturity_date : date.
Hypothesis parsed : strptime maturity_date_str = Some maturity_date.

Let n := num_periods maturity_date (clock w) coupon_frequency_per_year.
Let c := periodic_coupon_payment face_value coupon_rate coupon_frequency_per_year.
Let r := periodic_ytm ytm coupon_frequency_per_year.

Lemma pricer_past_maturity :
  (maturity_date < clock w)%Z ->
  run = (Val NoneV,
         mkWorld (clock w) (output w ++ [Printed Pricer.msg_past_maturity])).
Proof.
  intro H. subst run. unfold Pricer.calculate_bond_price. rewrite parsed. run_eff.
  decide_tests. reflexivity.
Qed.

Lemma pricer_bad_frequency :
  (clock w <= maturity_date)%Z -> (coupon_frequency_per_year <= 0)%Z ->
  run = (Val NoneV,
         mkWorld (clock w) (output w ++ [Printed Pricer.msg_frequency])).
Proof.
  intros H1 H2. subst run. unfold Pricer.calculate_bond_price. rewrite parsed. run_eff.
  decide_tests. reflexivity.
Qed.

Hypothesis date_ok : (clock w <= maturity_date)%Z.
Hypothesis frequency_ok : (0 < coupon_frequency_per_year)%Z.

Lemma pricer_at_maturity :
  (n <= 0)%Z -> run = (Val (Float face_value), w).
Proof.
  intro H. subst run n. unfold Pricer.calculate_bond_price. rewrite parsed. run_eff.
  decide_tests. reflexivity.
Qed.

Lemma pricer_zero_yield :
  (0 < n)%Z -> r == 0 ->
  run = (Val (Float (undiscounted_price face_value c r n)), w).
Proof.
  intros Hn Hr. subst run n r c. unfold Pricer.calculate_bond_price.
  rewrite parsed. run_eff. decide_tests.
  rewrite float_pow_nonzero by (rewrite Hr; discriminate).
  rewrite float_div_nonzero
    by (apply Qpower_not_0; rewrite Hr; discriminate).
  reflexivity.
Qed.

Lemma pricer_discounted :
  (0 < n)%Z -> ~ r == 0 -> ~ 1 + r == 0 ->
  run = (Val (Float (discounted_price face_value c r n)), w).
Proof.
  intros Hn Hr Hb. subst run n r c. unfold Pricer.calculate_bond_price.
  rewrite parsed. run_eff. decide_tests.
  rewrite !float_pow_nonzero by exact Hb.
  rewrite float_div_nonzero by exact Hr.
  rewrite float_div_nonzero by (apply Qpower_not_0; exact Hb).
  reflexivity.
Qed.

Lemma pricer_zero_base :
  (0 < n)%Z -> 1 + r == 0 -> run = (Exn ZeroDivisionError, w).
Proof.
  intros Hn Hb. subst run n r c. unfold Pricer.calculate_bond_price.
  rewrite parsed. run_eff. decide_tests.
  assert (Hr : ~ periodic_ytm ytm coupon_frequency_per_year == 0)
    by (intro E; rewrite E in Hb; discriminate Hb).
  decide_tests.
  rewrite float_pow_zero_neg by (trivial; lia).
  reflexivity.
Qed.

End PricerBranches.

Example strptime_epoch : Calendar.strptime "1970-01-01" = Some 719163%Z.
Proof. reflexivity. Qed.

Example strptime_leap_day :
  Calendar.strptime "2024-02-29" = Some 738945%Z /\ Calendar.strptime "2023-02-29" = None.
Proof. split; reflexivity. Qed.

Example strptime_rejects_text : Calendar.strptime "31/12/2030" = None.
Proof. reflexivity. Qed.

(** The scenarios of the specification: a 5 percent semi-annual bond of face
    value 1000, ten years from maturity, is at a premium at a yield of 4
    percent, at a discount at 6 percent and at par at 5 percent. *)
Example ten_year_bond_prices :
  let w := mkWorld 738945%Z [] in
  let price ytm :=
    match fst (Dashboard.calculate_bond_price 1000 (5 # 100) 742597%Z ytm 2 w) with
    | Val (Float p) => p
    | _ => 0
    end in
  Calendar.strptime "2034-02-28" = Some 742597%Z
  /\ num_periods 742597%Z 738945%Z 2 = 20%Z
  /\ 1000 < price (4 # 100) /\ price (6 # 100) < 1000 /\ price (5 # 100) == 1000.
Proof. repeat split; vm_compute; reflexivity. Qed.

(** * The number of coupon periods *)

Lemma days_per_year_pos : 0 < days_per_year.
Proof. reflexivity. Qed.

Lemma num_periods_same_day (today : date) (f : Z) : num_periods today today f = 0%Z.
Proof.
  unfold num_periods, years_to_maturity. rewrite Z.sub_diag.
  assert (E : inject_Z 0 / days_per_year * inject_Z f == 0) by (unfold days_per_year; field).
  rewrite E. reflexivity.
Qed.

Lemma periods_fraction_pos (maturity_date today : date) (f : Z) :
  (today < maturity_date)%Z -> (1 <= f)%Z ->
  0 < years_to_maturity maturity_date today * inject_Z f.
Proof.
  intros Hd Hf. unfold years_to_maturity.
  apply Qmult_lt_0_compat.
  - apply Qlt_shift_div_l; [exact days_per_year_pos|].
    rewrite Qmult_0_l. change 0 with (inject_Z 0). rewrite <- Zlt_Qlt. lia.
  - change 0 with (inject_Z 0). rewrite <- Zlt_Qlt. lia.
Qed.

Lemma num_periods_later_day (maturity_date today : date) (f : Z) :
  (today < maturity_date)%Z -> (1 <= f)%Z ->
  (0 < num_periods maturity_date today f)%Z.
Proof.
  intros Hd Hf. unfold num_periods.
  pose proof (periods_fraction_pos _ _ _ Hd Hf) as Hpos.
  pose proof (Qle_ceiling (years_to_maturity maturity_date today * inject_Z f)) as Hc.
  rewrite Zlt_Qlt. eapply Qlt_le_trans; [exact Hpos | exact Hc].
Qed.

(** C9: after validation, [num_periods <= 0] holds exactly when the bond
    matures on the reference date, so the face-value shortcut is taken on that
    day and on no later maturity. *)
Theorem num_periods_nonpositive_iff_matures_today
    (maturity_date today : date) (coupon_frequency_per_year : Z) :
  (today <= maturity_date)%Z -> (1 <= coupon_frequency_per_year)%Z ->
  ((num_periods maturity_date today coupon_frequency_per_year <= 0)%Z
   <-> maturity_date = today).
Proof.
  intros Hd Hf. split.
  - intro Hn. destruct (Z.eq_dec maturity_date today) as [E|E]; [exact E|].
    assert (Hlt : (today < maturity_date)%Z) by lia.
    pose proof (num_periods_later_day _ _ _ Hlt Hf). lia.
  - intros ->. rewrite num_periods_same_day. lia.
Qed.

Lemma num_periods_nonpositive_iff_matures_today_witness :
  (738945 <= 738945)%Z /\ (1 <= 2)%Z /\
  ((num_periods 738945%Z 738945%Z 2 <= 0)%Z <-> 738945%Z = 738945%Z).
Proof.
  split; [lia|]. split; [lia|].
  apply (num_periods_nonpositive_iff_matures_today 738945%Z 738945%Z 2); lia.
Defined.

(** * The price on each branch *)





(** C3: when the bond matures on the reference date, and whenever
    [num_periods <= 0] after validation, the engine returns the face value
    itself, with nothing added and nothing discounted. *)
Theorem price_is_face_value_at_maturity
    (strptime : string -> option date) (face_value coupon_rate : Q)
    (maturity_date_str : string) (maturity_date : date) (ytm : Q)
    (coupon_frequency_per_year : Z) (w : World) :
  strptime maturity_date_str = Some maturity_date ->
  (clock w <= maturity_date)%Z -> (1 <= coupon_frequency_per_year)%Z ->
  (maturity_date = clock w
   \/ (num_periods maturity_date (clock w) coupon_frequency_per_year <= 0)%Z) ->
  Pricer.calculate_bond_price strptime face_value coupon_rate maturity_date_str ytm
    coupon_frequency_per_year w = (Val (Float face_value), w)
  /\ Dashboard.calculate_bond_price face_value coupon_rate maturity_date ytm
       coupon_frequency_per_year w = (Val (Float face_value), w).
Proof.
  intros Hp Hd Hf Hn.
  assert (Hn' : (num_periods maturity_date (clock w) coupon_frequency_per_year <= 0)%Z).
  { destruct Hn as [E|Hn]; [|exact Hn]. rewrite E, num_periods_same_day. lia. }
  split.
  - apply pricer_at_maturity with (maturity_date := maturity_date); auto; lia.
  - apply dashboard_at_maturity; auto; lia.
Qed.

Lemma price_is_face_value_at_maturity_witness :
  let w := mkWorld 738945%Z [] in
  Pricer.calculate_bond_price Calendar.strptime 1000 (5 # 100) "2024-02-29" (4 # 100) 2 w
    = (Val (Float 1000), w)
  /\ Dashboard.calculate_bond_price 1000 (5 # 100) 738945%Z (4 # 100) 2 w
       = (Val (Float 1000), w).
Proof.
  intro w.
  apply (price_is_face_value_at_maturity Calendar.strptime 1000 (5 # 100)
           "2024-02-29" 738945%Z (4 # 100) 2 w).
  - reflexivity.
  - simpl; lia.
  - lia.
  - left; reflexivity.
Defined.



Lemma engines_return_price
    (strptime : string -> option date) (face_value coupon_rate : Q)
    (maturity_date_str : string) (maturity_date : date) (ytm : Q)
    (coupon_frequency_per_year : Z) (w : World) :
  strptime maturity_date_str = Some maturity_date ->
  (clock w <= maturity_date)%Z -> (1 <= coupon_frequency_per_year)%Z ->
  ((num_periods maturity_date (clock w) coupon_frequency_per_year <= 0)%Z
   \/ ~ 1 + periodic_ytm ytm coupon_frequency_per_year == 0) ->
  let price := price_of face_value coupon_rate maturity_date (clock w) ytm
                 coupon_frequency_per_year in
  Pricer.calculate_bond_price strptime face_value coupon_rate maturity_date_str ytm
    coupon_frequency_per_year w = (Val (Float price), w)
  /\ Dashboard.calculate_bond_price face_value coupon_rate maturity_date ytm
       coupon_frequency_per_year w = (Val (Float price), w).
Proof.
  intros Hp Hd Hf Hok price. subst price. unfold price_of.
  assert (Hf' : (0 < coupon_frequency_per_year)%Z) by lia.
  destruct (Z.leb_spec (num_periods maturity_date (clock w) coupon_frequency_per_year) 0)
    as [Hn|Hn].
  - split; [eapply pricer_at_maturity | apply dashboard_at_maturity]; eauto.
  - destruct Hok as [Hok|Hb]; [lia|].
    destruct (Qeq_dec (periodic_ytm ytm coupon_frequency_per_year) 0) as [Hr|Hr].
    + rewrite (Qeq_bool_true _ _ Hr).
      split; [eapply pricer_zero_yield | apply dashboard_zero_yield]; eauto.
    + rewrite (Qeq_bool_false _ _ Hr).
      split; [eapply pricer_discounted | apply dashboard_discounted]; eauto.
Qed.




(** * Validation *)




(** * Scaling the face value *)

Lemma price_of_scaling (k face_value coupon_rate : Q) (maturity_date today : date)
    (ytm : Q) (f : Z) :
  price_of (k * face_value) coupon_rate maturity_date today ytm f
  == k * price_of face_value coupon_rate maturity_date today ytm f.
Proof.
  unfold price_of.
  destruct (num_periods maturity_date today f <=? 0)%Z; [reflexivity|].
  destruct (Qeq_bool (periodic_ytm ytm f) 0);
    unfold undiscounted_price, discounted_price, periodic_coupon_payment, Qdiv; ring.
Qed.

(** C10: for validated inputs and a positive [k], pricing [k * face_value]
    gives [k] times the price of [face_value], on the [num_periods <= 0]
    branch and on the discounting branches alike. *)
Theorem face_value_scaling
    (strptime : string -> option date) (k face_value coupon_rate : Q)
    (maturity_date_str : string) (maturity_date : date) (ytm : Q)
    (coupon_frequency_per_year : Z) (w : World) :
  strptime maturity_date_str = Some maturity_date ->
  (clock w <= maturity_date)%Z -> (1 <= coupon_frequency_per_year)%Z ->
  0 < k ->
  let pricer fv := Pricer.calculate_bond_price strptime fv coupon_rate
                     maturity_date_str ytm coupon_frequency_per_year w in
  let dashboard fv := Dashboard.calculate_bond_price fv coupon_rate
                        maturity_date ytm coupon_frequency_per_year w in
  scaled k (pricer face_value) (pricer (k * face_value))
  /\ scaled k (dashboard face_value) (dashboard (k * face_value))
  /\ ((num_periods maturity_date (clock w) coupon_frequency_per_year <= 0)%Z
      \/ ~ periodic_ytm ytm coupon_frequency_per_year == -1 ->
      exists price price' : Q,
        fst (pricer face_value) = Val (Float price)
        /\ fst (dashboard face_value) = Val (Float price)
        /\ fst (pricer (k * face_value)) = Val (Float price')
        /\ fst (dashboard (k * face_value)) = Val (Float price')
        /\ price' == k * price).
Proof.
  intros Hp Hd Hf Hk pricer dashboard. subst pricer dashboard. cbv beta.
  set (n := num_periods maturity_date (clock w) coupon_frequency_per_year).
  set (r := periodic_ytm ytm coupon_frequency_per_year).
  assert (Hf' : (0 < coupon_frequency_per_year)%Z) by lia.
  assert (Hcases : ((n <= 0)%Z \/ ~ 1 + r == 0) \/ ((0 < n)%Z /\ 1 + r == 0)).
  { destruct (Z.le_gt_cases n 0); [tauto|].
    destruct (Qeq_dec (1 + r) 0); tauto. }
  destruct Hcases as [Hok|[Hn Hb]].
  - destruct (engines_return_price strptime face_value coupon_rate _ _ ytm _ w
                Hp Hd Hf Hok) as [E1 E2].
    destruct (engines_return_price strptime (k * face_value) coupon_rate _ _ ytm _ w
                Hp Hd Hf Hok) as [E3 E4].
    rewrite E1, E2, E3, E4. unfold scaled. cbn [fst snd].
    pose proof (price_of_scaling k face_value coupon_rate maturity_date (clock w) ytm
                  coupon_frequency_per_year) as Hs.
    repeat split; try exact Hs.
    intros _. do 2 eexists. repeat split. exact Hs.
  - rewrite !(pricer_zero_base strptime _ _ _ _ _ _ _ Hp Hd Hf' Hn Hb).
    rewrite !(dashboard_zero_base _ _ _ _ _ _ Hd Hf' Hn Hb).
    unfold scaled. cbn [fst snd]. repeat split.
    intros [Hle|Hne]; [lia|]. exfalso. apply Hne. fold r. lra.
Qed.

Lemma face_value_scaling_witness :
  let w := mkWorld 738945%Z [] in
  let pricer fv := Pricer.calculate_bond_price Calendar.strptime fv (5 # 100)
                     "2025-02-28" (4 # 100) 2 w in
  let dashboard fv := Dashboard.calculate_bond_price fv (5 # 100) 739310%Z (4 # 100) 2 w in
  scaled 3 (pricer 1000) (pricer (3 * 1000))
  /\ scaled 3 (dashboard 1000) (dashboard (3 * 1000))
  /\ ((num_periods 739310%Z (clock w) 2 <= 0)%Z \/ ~ periodic_ytm (4 # 100) 2 == -1 ->
      exists price price' : Q,
        fst (pricer 1000) = Val (Float price)
        /\ fst (dashboard 1000) = Val (Float price)
        /\ fst (pricer (3 * 1000)) = Val (Float price')
        /\ fst (dashboard (3 * 1000)) = Val (Float price')
        /\ price' == 3 * price).
Proof.
  intro w.
  apply (face_value_scaling Calendar.strptime 3 1000 (5 # 100) "2025-02-28"
           739310%Z (4 # 100) 2 w).
  - reflexivity.
  - simpl; lia.
  - lia.
  - reflexivity.
Defined.

(** * Price against yield *)














(** * The clock and the screen *)

Ltac split_tests :=
  repeat match goal with
  | |- context [if ?b then _ else _] => destruct b
  end.

(** The engine looks at the clock only: its result and the messages it adds
    are those of a run in the fresh world of the same day. *)
Lemma dashboard_frame (face_value coupon_rate : Q) (maturity_date : date) (ytm : Q)
    (f : Z) (w : World) :
  let run := Dashboard.calculate_bond_price face_value coupon_rate maturity_date ytm f in
  run w = (fst (run (fresh w)),
           mkWorld (clock w) (output w ++ output (snd (run (fresh w))))).
Proof.
  destruct w as [t out]. cbv zeta. unfold fresh, Dashboard.calculate_bond_price.
  run_eff. cbn [clock output].
  split_tests; cbn [fst snd clock output app]; rewrite ?app_nil_r; reflexivity.
Qed.

Lemma pricer_frame (strptime : string -> option date) (face_value coupon_rate : Q)
    (maturity_date_str : string) (ytm : Q) (f : Z) (w : World) :
  let run := Pricer.calculate_bond_price strptime face_value coupon_rate
               maturity_date_str ytm f in
  run w = (fst (run (fresh w)),
           mkWorld (clock w) (output w ++ output (snd (run (fresh w))))).
Proof.
  destruct w as [t out]. cbv zeta. unfold fresh, Pricer.calculate_bond_price.
  destruct (strptime maturity_date_str) as [maturity_date|];
    run_eff; cbn [clock output].
  2: reflexivity.
  unfold float_pow, float_div.
  split_tests; cbn [fst snd clock output app]; rewrite ?app_nil_r; try reflexivity.
Qed.

(** C6, as the code has it: the reference date is not an argument, the engine
    reads it from the system clock.  Its result, and the messages it adds to
    the screen, are determined by the arguments together with the date the
    clock shows; the clock itself is left as it was. *)
Theorem result_determined_by_arguments_and_clock
    (strptime : string -> option date) (face_value coupon_rate : Q)
    (maturity_date_str : string) (maturity_date : date) (ytm : Q)
    (coupon_frequency_per_year : Z) (w1 w2 : World) :
  clock w1 = clock w2 ->
  let pricer := Pricer.calculate_bond_price strptime face_value coupon_rate
                  maturity_date_str ytm coupon_frequency_per_year in
  let dashboard := Dashboard.calculate_bond_price face_value coupon_rate
                     maturity_date ytm coupon_frequency_per_year in
  (fst (pricer w1) = fst (pricer w2)
   /\ clock (snd (pricer w1)) = clock w1
   /\ exists shown, output (snd (pricer w1)) = output w1 ++ shown
                    /\ output (snd (pricer w2)) = output w2 ++ shown)
  /\ (fst (dashboard w1) = fst (dashboard w2)
      /\ clock (snd (dashboard w1)) = clock w1
      /\ exists shown, output (snd (dashboard w1)) = output w1 ++ shown
                       /\ output (snd (dashboard w2)) = output w2 ++ shown).
Proof.
  intros Hc pricer dashboard. subst pricer dashboard.
  assert (Hfresh : fresh w1 = fresh w2) by (unfold fresh; now rewrite Hc).
  split.
  - rewrite (pricer_frame strptime _ _ _ _ _ w1), (pricer_frame strptime _ _ _ _ _ w2).
    cbn [fst snd clock output]. rewrite Hfresh.
    split; [reflexivity|]. split; [reflexivity|].
    eexists. split; reflexivity.
  - rewrite (dashboard_frame _ _ _ _ _ w1), (dashboard_frame _ _ _ _ _ w2).
    cbn [fst snd clock output]. rewrite Hfresh.
    split; [reflexivity|]. split; [reflexivity|].
    eexists. split; reflexivity.
Qed.

Lemma result_determined_by_arguments_and_clock_witness :
  let w1 := mkWorld 738945%Z [] in
  let w2 := mkWorld 738945%Z [Printed "Enter Face Value (e.g., 1000): $"] in
  let pricer := Pricer.calculate_bond_price Calendar.strptime 1000 (5 # 100)
                  "2024-02-28" (4 # 100) 2 in
  let dashboard := Dashboard.calculate_bond_price 1000 (5 # 100) 738944%Z (4 # 100) 2 in
  (fst (pricer w1) = fst (pricer w2)
   /\ clock (snd (pricer w1)) = clock w1
   /\ exists shown, output (snd (pricer w1)) = output w1 ++ shown
                    /\ output (snd (pricer w2)) = output w2 ++ shown)
  /\ (fst (dashboard w1) = fst (dashboard w2)
      /\ clock (snd (dashboard w1)) = clock w1
      /\ exists shown, output (snd (dashboard w1)) = output w1 ++ shown
                       /\ output (snd (dashboard w2)) = output w2 ++ shown).
Proof.
  intros w1 w2.
  apply (result_determined_by_arguments_and_clock Calendar.strptime 1000 (5 # 100)
           "2024-02-28" 738944%Z (4 # 100) 2 w1 w2).
  reflexivity.
Defined.

(** C6 as stated fails: the same arguments give the face value on the day of
    maturity and [None] on the day after. *)
Lemma result_changes_with_the_clock :
  let w1 := mkWorld 738945%Z [] in
  let w2 := mkWorld 738946%Z [] in
  let pricer := Pricer.calculate_bond_price Calendar.strptime 1000 (5 # 100)
                  "2024-02-29" (4 # 100) 2 in
  let dashboard := Dashboard.calculate_bond_price 1000 (5 # 100) 738945%Z (4 # 100) 2 in
  fst (pricer w1) = Val (Float 1000) /\ fst (pricer w2) = Val NoneV
  /\ fst (dashboard w1) = Val (Float 1000) /\ fst (dashboard w2) = Val NoneV
  /\ fst (pricer w1) <> fst (pricer w2)
  /\ fst (dashboard w1) <> fst (dashboard w2).
Proof.
  intros w1 w2 pricer dashboard.
  assert (E1 : fst (pricer w1) = Val (Float 1000)) by reflexivity.
  assert (E2 : fst (pricer w2) = Val NoneV) by reflexivity.
  assert (E3 : fst (dashboard w1) = Val (Float 1000)) by reflexivity.
  assert (E4 : fst (dashboard w2) = Val NoneV) by reflexivity.
  rewrite E1, E2, E3, E4. repeat split; discriminate.
Qed.

(** C7, as the code has it: a validation failure is put on the screen by the
    engine itself (one [print] or [st.error] line, a different text for each
    kind) and the value returned is [None] for every kind; the face value is
    not validated; a run that passes validation shows nothing and does not
    return [None]. *)
Theorem failures_are_shown_and_return_none
    (strptime : string -> option date) (face_value coupon_rate : Q)
    (maturity_date_str : string) (maturity_date : date) (ytm : Q)
    (coupon_frequency_per_year : Z) (w : World) :
  let pricer := Pricer.calculate_bond_price strptime face_value coupon_rate
                  maturity_date_str ytm coupon_frequency_per_year w in
  let dashboard := Dashboard.calculate_bond_price face_value coupon_rate
                     maturity_date ytm coupon_frequency_per_year w in
  let shows ev := mkWorld (clock w) (output w ++ [ev]) in
  (strptime maturity_date_str = None ->
   pricer = (Val NoneV, shows (Printed Pricer.msg_date_format)))
  /\ (strptime maturity_date_str = Some maturity_date ->
      ((maturity_date < clock w)%Z ->
       pricer = (Val NoneV, shows (Printed Pricer.msg_past_maturity))
       /\ dashboard = (Val NoneV, shows (StErrorShown Dashboard.msg_past_maturity)))
      /\ ((clock w <= maturity_date)%Z -> (coupon_frequency_per_year <= 0)%Z ->
          pricer = (Val NoneV, shows (Printed Pricer.msg_frequency))
          /\ dashboard = (Val NoneV, shows (StErrorShown Dashboard.msg_frequency)))
      /\ ((clock w <= maturity_date)%Z -> (0 < coupon_frequency_per_year)%Z ->
          snd pricer = w /\ fst pricer <> Val NoneV
          /\ snd dashboard = w /\ fst dashboard <> Val NoneV)).
Proof.
  intros pricer dashboard shows. subst pricer dashboard shows. cbv beta.
  split; [apply pricer_bad_date|].
  intro Hp. split; [|split].
  - intro Hd. split; [eapply pricer_past_maturity | apply dashboard_past_maturity]; eauto.
  - intros Hd Hf.
    split; [eapply pricer_bad_frequency | apply dashboard_bad_frequency]; eauto.
  - intros Hd Hf.
    set (n := num_periods maturity_date (clock w) coupon_frequency_per_year).
    set (r := periodic_ytm ytm coupon_frequency_per_year).
    assert (Hcases : ((n <= 0)%Z \/ ~ 1 + r == 0) \/ ((0 < n)%Z /\ 1 + r == 0)).
    { destruct (Z.le_gt_cases n 0); [tauto|].
      destruct (Qeq_dec (1 + r) 0); tauto. }
    destruct Hcases as [Hok|[Hn Hb]].
    + assert (Hf1 : (1 <= coupon_frequency_per_year)%Z) by lia.
      destruct (engines_return_price strptime face_value coupon_rate _ _ ytm _ w Hp Hd
                  Hf1 Hok) as [E1 E2].
      rewrite E1, E2. cbn [fst snd]. repeat split; discriminate.
    + rewrite (pricer_zero_base strptime _ _ _ _ _ _ _ Hp Hd Hf Hn Hb).
      rewrite (dashboard_zero_base _ _ _ _ _ _ Hd Hf Hn Hb).
      cbn [fst snd]. repeat split; discriminate.
Qed.

Lemma failures_are_shown_and_return_none_witness :
  let w := mkWorld 738945%Z [] in
  let pricer := Pricer.calculate_bond_price Calendar.strptime 1000 (5 # 100)
                  "2024-02-28" (4 # 100) 2 w in
  let dashboard := Dashboard.calculate_bond_price 1000 (5 # 100) 738944%Z (4 # 100) 2 w in
  pricer = (Val NoneV, mkWorld 738945%Z [Printed Pricer.msg_past_maturity])
  /\ dashboard = (Val NoneV, mkWorld 738945%Z [StErrorShown Dashboard.msg_past_maturity]).
Proof.
  intro w.
  apply (failures_are_shown_and_return_none Calendar.strptime 1000 (5 # 100)
           "2024-02-28" 738944%Z (4 # 100) 2 w).
  - reflexivity.
  - simpl; lia.
Defined.

(** C7 as stated fails: on a maturity date in the past the engine writes to
    the screen, and it returns the same [None] as for a bad frequency. *)
Lemma failure_is_shown_on_screen :
  let w := mkWorld 738945%Z [] in
  let past_p := Pricer.calculate_bond_price Calendar.strptime 1000 (5 # 100)
                  "2024-02-28" (4 # 100) 2 w in
  let freq_p := Pricer.calculate_bond_price Calendar.strptime 1000 (5 # 100)
                  "2025-02-28" (4 # 100) 0 w in
  let past_d := Dashboard.calculate_bond_price 1000 (5 # 100) 738944%Z (4 # 100) 2 w in
  let freq_d := Dashboard.calculate_bond_price 1000 (5 # 100) 739310%Z (4 # 100) 0 w in
  output (snd past_p) = [Printed Pricer.msg_past_maturity]
  /\ output (snd past_d) = [StErrorShown Dashboard.msg_past_maturity]
  /\ snd past_p <> w /\ snd past_d <> w
  /\ fst past_p = fst freq_p /\ fst past_d = fst freq_d.
Proof.
  intros w past_p freq_p past_d freq_d.
  assert (E1 : past_p = (Val NoneV, mkWorld 738945%Z [Printed Pricer.msg_past_maturity]))
    by reflexivity.
  assert (E2 : past_d
               = (Val NoneV, mkWorld 738945%Z [StErrorShown Dashboard.msg_past_maturity]))
    by reflexivity.
  assert (E3 : fst freq_p = Val NoneV) by reflexivity.
  assert (E4 : fst freq_d = Val NoneV) by reflexivity.
  rewrite E1, E2, E3, E4. cbn [fst snd output].
  repeat split; try reflexivity; subst w; discriminate.
Qed.

(** * The sampled yields *)











(** * The price column *)






Section PriceColumn.

Variables (face_value coupon_rate : Q) (maturity_date : date) (coupon_frequency : Z).

Let loop := Dashboard.prices_loop face_value coupon_rate maturity_date coupon_frequency.



End PriceColumn.





(** * Further properties of the engine *)

(** ** The price as a sum of discounted cash flows, on every branch *)













Lemma inject_Z_pos (f : Z) : (1 <= f)%Z -> 0 < inject_Z f.
Proof. intro Hf. change 0 with (inject_Z 0). rewrite <- Zlt_Qlt. lia. Qed.












(** ** The period count and the time to maturity *)






(** ** The two copies side by side *)

Lemma engine_cases
    (strptime : string -> option date) (face_value coupon_rate : Q)
    (maturity_date_str : string) (maturity_date : date) (ytm : Q)
    (f : Z) (w : World) :
  strptime maturity_date_str = Some maturity_date ->
  let pricer := Pricer.calculate_bond_price strptime face_value coupon_rate
                  maturity_date_str ytm f w in
  let dashboard := Dashboard.calculate_bond_price face_value coupon_rate
                     maturity_date ytm f w in
  let n := num_periods maturity_date (clock w) f in
  let r := periodic_ytm ytm f in
  let shows ev := mkWorld (clock w) (output w ++ [ev]) in
  ((maturity_date < clock w)%Z
   /\ pricer = (Val NoneV, shows (Printed Pricer.msg_past_maturity))
   /\ dashboard = (Val NoneV, shows (StErrorShown Dashboard.msg_past_maturity)))
  \/ ((clock w <= maturity_date)%Z /\ (f <= 0)%Z
      /\ pricer = (Val NoneV, shows (Printed Pricer.msg_frequency))
      /\ dashboard = (Val NoneV, shows (StErrorShown Dashboard.msg_frequency)))
  \/ ((clock w <= maturity_date)%Z /\ (0 < f)%Z /\ ((n <= 0)%Z \/ ~ 1 + r == 0)
      /\ exists price, pricer = (Val (Float price), w) /\ dashboard = (Val (Float price), w))
  \/ ((clock w <= maturity_date)%Z /\ (0 < f)%Z /\ (0 < n)%Z /\ 1 + r == 0
      /\ pricer = (Exn ZeroDivisionError, w) /\ dashboard = (Val NonFinite, w)).
Proof.
  intros Hp pricer dashboard n r shows. subst pricer dashboard n r shows.
  destruct (Z.lt_ge_cases maturity_date (clock w)) as [Hd|Hd].
  { left. split; [exact Hd|].
    split; [eapply pricer_past_maturity | apply dashboard_past_maturity]; eauto. }
  destruct (Z.le_gt_cases f 0) as [Hf|Hf].
  { right; left. split; [exact Hd|]. split; [exact Hf|].
    split; [eapply pricer_bad_frequency | apply dashboard_bad_frequency]; eauto. }
  destruct (Z.le_gt_cases (num_periods maturity_date (clock w) f) 0) as [Hn|Hn].
  { right; right; left. repeat split; try assumption; [left; exact Hn|].
    assert (Hf1 : (1 <= f)%Z) by lia.
    destruct (engines_return_price strptime face_value coupon_rate _ _ ytm _ w Hp Hd Hf1
                (or_introl Hn)) as [E1 E2].
    eexists; split; eassumption. }
  destruct (Qeq_dec (1 + periodic_ytm ytm f) 0) as [Hb|Hb].
  - right; right; right. repeat split; try assumption.
    + eapply pricer_zero_base; eauto.
    + apply dashboard_zero_base; auto.
  - right; right; left. repeat split; try assumption; [right; exact Hb|].
    assert (Hf1 : (1 <= f)%Z) by lia.
    destruct (engines_return_price strptime face_value coupon_rate _ _ ytm _ w Hp Hd Hf1
                (or_intror Hb)) as [E1 E2].
    eexists; split; eassumption.
Qed.







(** * The dashboard script *)

Example default_maturity_is_2030_12_31 :
  Calendar.strptime "2030-12-31" = Some DashboardApp.default_maturity.
Proof. reflexivity. Qed.










Lemma Qle_bool_false_lt (x y : Q) : Qle_bool x y = false <-> y < x.
Proof.
  split.
  - intro H. apply Qnot_le_lt. intro Hle. apply Qle_bool_iff in Hle. congruence.
  - intro H. destruct (Qle_bool x y) eqn:E; [|reflexivity].
    apply Qle_bool_iff in E. lra.
Qed.






(** * The command-line loop *)

Lemma price_line_inj (x y : string) : Cli.price_line x = Cli.price_line y -> x = y.
Proof. unfold Cli.price_line. cbn [append]. intro H. now inversion H. Qed.

(** What a run of the engine on a fresh world can have printed. *)
Lemma pricer_run_shape (strptime : string -> option date) (face_value coupon_rate : Q)
    (maturity_date_str : string) (ytm : Q) (f : Z) (today : date) :
  let run := Pricer.calculate_bond_price strptime face_value coupon_rate
               maturity_date_str ytm f (mkWorld today []) in
  (fst run = Val NoneV
   /\ exists msg, output (snd run) = [Printed msg]
                  /\ (msg = Pricer.msg_date_format \/ msg = Pricer.msg_past_maturity
                      \/ msg = Pricer.msg_frequency))
  \/ (fst run <> Val NoneV /\ output (snd run) = []).
Proof.
  intro run. subst run.
  destruct (strptime maturity_date_str) as [m|] eqn:Hp.
  - destruct (engine_cases strptime face_value coupon_rate _ _ ytm f (mkWorld today []) Hp)
      as [(_ & E1 & _) | [(_ & _ & E1 & _) | [(_ & _ & _ & p & E1 & _)
         | (_ & _ & _ & _ & E1 & _)]]]; rewrite E1; cbn [fst snd output app].
    + left. split; [reflexivity|]. eexists; split; [reflexivity|tauto].
    + left. split; [reflexivity|]. eexists; split; [reflexivity|tauto].
    + right. split; [discriminate | reflexivity].
    + right. split; [discriminate | reflexivity].
  - rewrite (pricer_bad_date strptime _ _ _ _ _ _ Hp). cbn [fst snd output app].
    left. split; [reflexivity|]. eexists; split; [reflexivity|tauto].
Qed.

Ltac not_price H :=
  unfold Cli.price_line in H; cbn in H; discriminate H.


Ltac cli_unfold :=
  repeat (progress
            (unfold Cli.bind, Cli.ret, Cli.raise, Cli.print, Cli.write, Cli.input,
               Cli.to_float, Cli.to_int, Cli.try_except, Cli.engine, Cli.out_of_fuel;
             cbn beta iota; cbn [Cli.now Cli.stdin Cli.stdout])).

Ltac cli_case :=
  match goal with
  | |- context [match ?x with _ => _ end] =>
      lazymatch x with
      | context [match _ with _ => _ end] => fail
      | _ => destruct x eqn:?
      end
  end.

Ltac sweep H :=
  cbn [In] in H;
  repeat (destruct H as [H|H];
          [first [discriminate H | injection H as H; not_price H] |]);
  try contradiction.

Section CliFacts.

Variable strptime : string -> option date.
Variable float_of_string : string -> option Q.
Variable int_of_string : string -> option Z.
Variable lower : string -> string.
Variable format_price : value -> string.
Variable str_of_exn : Cli.py_exn -> string.

Let round := Cli.round strptime float_of_string int_of_string format_price str_of_exn.
Let loop := Cli.loop strptime float_of_string int_of_string lower format_price str_of_exn.
Let shown_price := Cli.shown_price strptime float_of_string int_of_string format_price.

Lemma round_spec (c : Cli.Console) :
  exists how rest added,
    round c = (Cli.Ok how, Cli.mkConsole (Cli.now c) rest (Cli.stdout c ++ added))
    /\ (List.length rest <= List.length (Cli.stdin c))%nat
    /\ (how = Cli.Continue -> (List.length rest < List.length (Cli.stdin c))%nat)
    /\ (forall l, In l rest -> In l (Cli.stdin c))
    /\ (forall x, In (Cli.Line (Cli.price_line x)) added -> shown_price c x).
Proof.
  destruct c as [t inp out]. subst round shown_price.
  unfold Cli.round, Cli.attempt. cli_unfold.
  repeat (cli_case; cli_unfold).
  all: do 3 eexists.
  all: (split; [rewrite <- ?app_assoc; cbn [app]; reflexivity|]).
  all: cbn [List.length In].
  all: (split; [lia|]).
  all: (split; [intro; try discriminate; lia|]).
  all: (split; [tauto|]).
  all: intros x H.
  all: try (exfalso; sweep H; fail).
  all: match goal with
       | E : Pricer.calculate_bond_price _ ?F ?cr ?s ?y ?f (mkWorld ?d []) = _ |- _ =>
           pose proof (pricer_run_shape strptime F cr s y f d) as S;
           cbv zeta in S; rewrite E in S; cbn [fst snd] in S;
           destruct S as [[Er (msg & Eo & Hm)] | [Er Eo]];
           rewrite Eo in H; cbn [map Cli.written_of_event app In] in H
       end.
  all: try congruence.
  all: try (exfalso; destruct Hm as [->|[->| ->]]; sweep H; fail).
  all: try (exfalso; sweep H; fail).
  all: sweep H.
  all: destruct H as [H|H]; [|exfalso; sweep H].
  all: injection H as H; subst x.
  all: match goal with
       | H1 : float_of_string ?a = Some ?F, H2 : float_of_string ?b = Some ?C,
         H4 : float_of_string ?d = Some ?Y, H5 : int_of_string ?e = Some ?N,
         HE : Pricer.calculate_bond_price _ ?F (?C / 100) ?l3 (?Y / 100) ?N _
              = (Val ?v, _),
         HF : Qle_bool ?F 0 = false, HN : (?N <=? 0)%Z = false |- _ =>
           exists a, b, l3, d, e, F, C, Y, N, v;
           cbn [Cli.stdin Cli.now In];
           repeat split; try tauto; try assumption;
           [ apply Qle_bool_false_lt; exact HF
           | apply Z.leb_gt; exact HN
           | rewrite HE; reflexivity
           | discriminate ]
       end.
Qed.


Lemma shown_price_incl (c c' : Cli.Console) (x : string) :
  Cli.now c' = Cli.now c -> (forall l, In l (Cli.stdin c') -> In l (Cli.stdin c)) ->
  shown_price c' x -> shown_price c x.
Proof.
  intros Hn Hi (l1 & l2 & l3 & l4 & l5 & F & C & Y & N & v & H).
  exists l1, l2, l3, l4, l5, F, C, Y, N, v. rewrite <- Hn.
  repeat match goal with
         | H : _ /\ _ |- _ => destruct H
         end.
  repeat split; auto.
Qed.

Lemma loop_spec (fuel : nat) :
  forall c : Cli.Console,
  (List.length (Cli.stdin c) < fuel)%nat ->
  exists r rest added,
    loop fuel c = (r, Cli.mkConsole (Cli.now c) rest (Cli.stdout c ++ added))
    /\ (r = Cli.Ok tt \/ (r = Cli.Raise Cli.EOFError /\ rest = []))
    /\ (forall l, In l rest -> In l (Cli.stdin c))
    /\ (forall x, In (Cli.Line (Cli.price_line x)) added -> shown_price c x)
    /\ (r = Cli.Ok tt ->
        exists answer before,
          In answer (Cli.stdin c) /\ lower answer <> "yes"%string
          /\ added = before ++ cli_farewell).
Proof.
  induction fuel as [|k IH]; intros c Hlen; [lia|].
  destruct (round_spec c) as (how & rest1 & added1 & Er & Hl1 & Hc1 & Hi1 & Hp1).
  subst loop. cbn [Cli.loop]. unfold Cli.bind at 1. fold round. rewrite Er.
  destruct how.
  - specialize (Hc1 eq_refl).
    destruct (IH (Cli.mkConsole (Cli.now c) rest1 (Cli.stdout c ++ added1)))
      as (r & rest & added2 & El & Hr & Hi & Hp & Hf); [cbn [Cli.stdin]; lia|].
    cbn [Cli.now Cli.stdin Cli.stdout] in *.
    exists r, rest, (added1 ++ added2). rewrite El, app_assoc.
    split; [reflexivity|]. split; [exact Hr|]. split; [auto|]. split.
    + intros x H. apply in_app_or in H. destruct H as [H|H]; [auto|].
      apply Hp in H. eapply shown_price_incl; [| |exact H]; cbn; auto.
    + intro E. destruct (Hf E) as (answer & before & Ha & Hy & Ea).
      exists answer, (added1 ++ before). rewrite Ea, app_assoc. auto.
  - unfold Cli.bind at 1, Cli.input at 1. cbn [Cli.now Cli.stdin Cli.stdout].
    destruct rest1 as [|answer rest2].
    + do 3 eexists. split; [rewrite <- app_assoc; reflexivity|].
      split; [right; split; reflexivity|]. split; [intros l []|]. split.
      * intros x H. apply in_app_or in H. destruct H as [H|H]; [auto|].
        exfalso. sweep H.
      * discriminate.
    + destruct (String.eqb (lower answer) "yes") eqn:Ey; cbn [negb].
      * destruct (IH (Cli.mkConsole (Cli.now c) rest2
                        ((Cli.stdout c ++ added1)
                         ++ [Cli.Prompt (Cli.nl ++ "Do you want to calculate another bond price? (yes/no): ")%string])))
          as (r & rest & added2 & El & Hr & Hi & Hp & Hf);
          [cbn [Cli.stdin List.length] in *; lia|].
        cbn [Cli.now Cli.stdin Cli.stdout] in *.
        exists r, rest, (added1 ++ [Cli.Prompt (Cli.nl ++ "Do you want to calculate another bond price? (yes/no): ")%string] ++ added2).
        rewrite El, !app_assoc.
        split; [reflexivity|]. split; [exact Hr|].
        split; [intros l H; apply Hi1; right; auto|]. split.
        -- intros x H. rewrite <- app_assoc in H.
           apply in_app_or in H. destruct H as [H|H]; [auto|].
           cbn [app In] in H. destruct H as [H|H]; [discriminate H|].
           apply Hp in H. eapply shown_price_incl; [| |exact H]; cbn; auto.
           intros l Hl. apply Hi1. right. exact Hl.
        -- intro E. destruct (Hf E) as (a & before & Ha & Hy & Ea).
           exists a, (added1 ++ [Cli.Prompt (Cli.nl ++ "Do you want to calculate another bond price? (yes/no): ")%string] ++ before).
           rewrite Ea, !app_assoc.
           split; [apply Hi1; right; exact Ha|]. split; [exact Hy | reflexivity].
      * cli_unfold.
        exists (Cli.Ok tt), rest2,
          (added1 ++ [Cli.Prompt (Cli.nl ++ "Do you want to calculate another bond price? (yes/no): ")%string] ++ cli_farewell).
        split; [unfold cli_farewell; rewrite <- !app_assoc; reflexivity|].
        split; [left; reflexivity|].
        split; [intros l H; apply Hi1; right; exact H|]. split.
        -- intros x H. apply in_app_or in H. destruct H as [H|H]; [auto|].
           exfalso. unfold cli_farewell in H. cbn [app] in H. sweep H.
        -- intros _. exists answer, (added1 ++ [Cli.Prompt (Cli.nl ++ "Do you want to calculate another bond price? (yes/no): ")%string]).
           split; [apply Hi1; left; reflexivity|].
           split; [apply String.eqb_neq; exact Ey|].
           rewrite <- app_assoc. reflexivity.
Qed.

Lemma loop_fuel (fuel : nat) :
  forall (c : Cli.Console) (fuel' : nat),
  (List.length (Cli.stdin c) < fuel)%nat -> (fuel <= fuel')%nat ->
  loop fuel' c = loop fuel c.
Proof.
  induction fuel as [|k IH]; intros c fuel' Hlen Hle; [lia|].
  destruct fuel' as [|k']; [lia|].
  destruct (round_spec c) as (how & rest1 & added1 & Er & Hl1 & Hc1 & _).
  assert (Eb : forall (A B : Type) (m : Cli.t A) (g : A -> Cli.t B) (d : Cli.Console),
             Cli.bind m g d = match m d with
                              | (Cli.Ok a, d') => g a d'
                              | (Cli.Raise e, d') => (Cli.Raise e, d')
                              | (Cli.OutOfFuel, d') => (Cli.OutOfFuel, d')
                              end) by reflexivity.
  subst loop. cbn [Cli.loop]. fold round. rewrite !Eb, Er.
  destruct how.
  - specialize (Hc1 eq_refl). apply IH; [cbn [Cli.stdin]; lia | lia].
  - rewrite !Eb. unfold Cli.input. cbn [Cli.now Cli.stdin Cli.stdout].
    destruct rest1 as [|answer rest2]; [reflexivity|].
    destruct (negb (String.eqb (lower answer) "yes")); [reflexivity|].
    apply IH; [cbn [Cli.stdin List.length] in *; lia | lia].
Qed.


Let main := Cli.main strptime float_of_string int_of_string lower format_price str_of_exn.

Lemma main_spec (fuel : nat) (c : Cli.Console) :
  (List.length (Cli.stdin c) < fuel)%nat ->
  exists r rest added,
    main fuel c = (r, Cli.mkConsole (Cli.now c) rest (Cli.stdout c ++ added))
    /\ (r = Cli.Ok tt \/ (r = Cli.Raise Cli.EOFError /\ rest = []))
    /\ (forall x, In (Cli.Line (Cli.price_line x)) added -> shown_price c x)
    /\ (r = Cli.Ok tt ->
        exists answer before,
          In answer (Cli.stdin c) /\ lower answer <> "yes"%string
          /\ added = before ++ cli_farewell).
Proof.
  intro Hlen. subst main. unfold Cli.main. cli_unfold. fold loop.
  match goal with
  | |- context [loop fuel ?d] =>
      destruct (loop_spec fuel d) as (r & rest & added & El & Hr & _ & Hp & Hf);
      [exact Hlen|]; rewrite El
  end.
  cbn [Cli.now Cli.stdin Cli.stdout] in *.
  do 3 eexists. split; [rewrite <- !app_assoc; cbn [app]; reflexivity|].
  split; [exact Hr|]. split.
  - intros x H. cbn [In] in H.
    repeat (destruct H as [H|H];
            [first [discriminate H | injection H as H; not_price H]|]).
    apply Hp in H. eapply shown_price_incl; [| |exact H]; cbn; auto.
  - intro E. destruct (Hf E) as (answer & before & Ha & Hy & Ea).
    exists answer. eexists. split; [exact Ha|]. split; [exact Hy|].
    rewrite Ea. rewrite !app_comm_cons. reflexivity.
Qed.

End CliFacts.


(** X11: the command-line loop ends on every finite input.  As many rounds
    as there are input lines, plus one, are enough and more rounds change
    nothing; [main] then either returns normally or raises [EOFError] with
    the input used up.  The [ValueError] of a malformed number and the
    [ZeroDivisionError] of the engine never leave the loop. *)
Theorem cli_loop_ends
    (strptime : string -> option date) (float_of_string : string -> option Q)
    (int_of_string : string -> option Z) (lower : string -> string)
    (format_price : value -> string) (str_of_exn : Cli.py_exn -> string)
    (c : Cli.Console) (fuel fuel' : nat) :
  (List.length (Cli.stdin c) < fuel)%nat -> (fuel <= fuel')%nat ->
  let main := Cli.main strptime float_of_string int_of_string lower format_price
                str_of_exn in
  main fuel' c = main fuel c
  /\ (fst (main fuel c) = Cli.Ok tt
      \/ (fst (main fuel c) = Cli.Raise Cli.EOFError /\ Cli.stdin (snd (main fuel c)) = []))
  /\ Cli.now (snd (main fuel c)) = Cli.now c
  /\ exists added, Cli.stdout (snd (main fuel c)) = Cli.stdout c ++ added.
Proof.
  intros Hlen Hle main. subst main. split.
  - unfold Cli.main. cli_unfold. apply loop_fuel; [exact Hlen | exact Hle].
  - destruct (main_spec strptime float_of_string int_of_string lower format_price
                str_of_exn fuel c Hlen) as (r & rest & added & Em & Hr & _).
    rewrite Em. cbn [fst snd Cli.now Cli.stdin Cli.stdout].
    split; [|split; [reflexivity | exists added; reflexivity]].
    destruct Hr as [->|[-> ->]]; [left | right; split]; reflexivity.
Qed.

Lemma cli_loop_ends_witness :
  let c := Cli.mkConsole 738945%Z ["1000"; "5"; "2034-02-28"; "4"; "2"; "no"]%string [] in
  let main := Cli.main Calendar.strptime Sample.float_of_string Sample.int_of_string
                Sample.lower Sample.format_price Sample.str_of_exn in
  main 9%nat c = main 7%nat c
  /\ (fst (main 7%nat c) = Cli.Ok tt
      \/ (fst (main 7%nat c) = Cli.Raise Cli.EOFError
          /\ Cli.stdin (snd (main 7%nat c)) = []))
  /\ Cli.now (snd (main 7%nat c)) = Cli.now c
  /\ exists added, Cli.stdout (snd (main 7%nat c)) = Cli.stdout c ++ added.
Proof.
  intro c.
  apply (cli_loop_ends Calendar.strptime Sample.float_of_string Sample.int_of_string
           Sample.lower Sample.format_price Sample.str_of_exn c 7 9).
  - cbn; lia.
  - lia.
Defined.





(** A session of the loop on the sample library: one bond is priced and the
    user leaves; with no answer to the question the input runs out; a face
    value that is not positive is followed by the question at once. *)
Example cli_session :
  let main := Cli.main Calendar.strptime Sample.float_of_string Sample.int_of_string
                Sample.lower Sample.format_price Sample.str_of_exn 7 in
  let typed := ["1000"; "5"; "2034-02-28"; "4"; "2"]%string in
  fst (main (Cli.mkConsole 738945%Z (typed ++ ["NO"%string]) [])) = Cli.Ok tt
  /\ In (Cli.Line (Cli.price_line "1,081.76"))
        (Cli.stdout (snd (main (Cli.mkConsole 738945%Z (typed ++ ["NO"%string]) []))))
  /\ fst (main (Cli.mkConsole 738945%Z typed [])) = Cli.Raise Cli.EOFError
  /\ Cli.stdin (snd (main (Cli.mkConsole 738945%Z ["-5"; "0"; "x"; "Yes"]%string [])))
     = ["x"; "Yes"]%string.
Proof.
  cbv zeta. split; [vm_compute; reflexivity|].
  split; [vm_compute; do 12 right; left; reflexivity|].
  split; vm_compute; reflexivity.
Qed.

(** * The slope of the chart *)




